(** * The map view of Colouring Cities: [app/src/frontend/map/map.tsx]

    A shallow embedding of the [ColouringMap] React component: its hook
    state, its three event handlers ([handleLocate], [handleClick],
    [layerSwitch]), the element tree it returns and the effect of
    [MapBackgroundColor], followed by the properties of the map view
    controller. *)

From Stdlib Require Import Floats.PrimFloat.
From Stdlib Require Import Bool List.
From stdpp Require Import base strings gmap.
Import ListNotations.

Set Warnings "-inexact-float,-register-all".
Local Open Scope string_scope.
Local Open Scope list_scope.

(** ** JavaScript values *)

(** A JavaScript [number] is an IEEE 754 binary64 value. *)
Abbreviation number := float (only parsing).

(** What is left in child position when the left operand of [&&] is falsy.
    React draws nothing for [undefined] and booleans, and text for numbers
    and strings. *)
Inductive Primitive : Type :=
| PUndefined
| PBool (b : bool)
| PNumber (x : number)
| PString (s : string).

(** Truthiness (ECMAScript ToBoolean) of the types that reach a condition
    in this file, and the primitive a value of the type denotes. *)
Class JsValue (A : Type) : Type := {
  truthy : A -> bool;
  toPrimitive : A -> Primitive
}.

(** The falsy numbers are [+0], [-0] and [NaN]. *)
Definition number_truthy (x : number) : bool :=
  negb (PrimFloat.eqb x 0%float || PrimFloat.is_nan x).

(** The only falsy string is the empty one. *)
Definition string_truthy (s : string) : bool :=
  match s with
  | EmptyString => false
  | String _ _ => true
  end.

#[export] Instance JsValue_bool : JsValue bool :=
  {| truthy b := b; toPrimitive := PBool |}.

#[export] Instance JsValue_number : JsValue number :=
  {| truthy := number_truthy; toPrimitive := PNumber |}.

#[export] Instance JsValue_string : JsValue string :=
  {| truthy := string_truthy; toPrimitive := PString |}.

(** A prop that may be [undefined] ([None]); [null] behaves the same way
    under [&&], [?.] and [!= undefined], the only operators applied to
    such props here. *)
#[export] Instance JsValue_optional {A : Type} `{JsValue A} : JsValue (option A) :=
  {| truthy o := match o with Some a => truthy a | None => false end;
     toPrimitive o := match o with Some a => toPrimitive a | None => PUndefined end |}.

(** [x != undefined] *)
Definition neq_undefined {A : Type} (x : option A) : bool :=
  match x with
  | Some _ => true
  | None => false
  end.

(** ** Configuration types ([config/map-config], [config/tileserver-config]) *)

(** Modelled from the spec: the declaration of [LayerEnablementState] in
    [config/map-config]; the spec gives the enum of the two values
    ['enabled'] and ['disabled']. *)
Inductive LayerEnablementState : Type :=
| Enabled
| Disabled.

Definition LayerEnablementState_eqb (a b : LayerEnablementState) : bool :=
  match a, b with
  | Enabled, Enabled | Disabled, Disabled => true
  | _, _ => false
  end.

(** [MapTheme] and [BuildingMapTileset] are unions of string literals. *)
Abbreviation MapTheme := string (only parsing).
Abbreviation BuildingMapTileset := string (only parsing).

(** [mode: 'basic' | 'view' | 'edit' | 'multi-edit'] *)
Inductive Mode : Type :=
| Basic
| View
| Edit
| MultiEdit.

Definition Mode_eqb (a b : Mode) : bool :=
  match a, b with
  | Basic, Basic | View, View | Edit, Edit | MultiEdit, MultiEdit => true
  | _, _ => false
  end.

(** The shape of [initialMapViewport]. *)
Record MapViewportConfig : Type := {
  cfg_position : number * number;
  cfg_zoom : number
}.

(** ** Events and the lookup service *)

Record LatLng : Type := { lat : number; lng : number }.

Record LeafletMouseEvent : Type := { latlng : LatLng }.

(** The request path [`/api/buildings/locate?lat=${lat}&lng=${lng}`], kept
    structured. *)
Inductive Url : Type :=
| BuildingsLocate (lat lng : number).

(** How an awaited promise settles. *)
Inductive Promise (A : Type) : Type :=
| Fulfilled (a : A)
| Rejected.
Arguments Fulfilled {A} a.
Arguments Rejected {A}.

(** ** Hook state of [ColouringMap] *)

Record HookState : Type := {
  dataLayers : LayerEnablementState;
  position : number * number;
  zoom : number
}.

Definition set_dataLayers (v : LayerEnablementState) (h : HookState) : HookState :=
  {| dataLayers := v; position := position h; zoom := zoom h |}.

Definition set_position (v : number * number) (h : HookState) : HookState :=
  {| dataLayers := dataLayers h; position := v; zoom := zoom h |}.

Definition set_zoom (v : number) (h : HookState) : HookState :=
  {| dataLayers := dataLayers h; position := position h; zoom := v |}.

Section Controller.

(** Declarations of the repository that [map.tsx] imports: the entity type
    of [models/building], the definitions handed to the legend, and the
    two constants of [config/map-config]. *)
Context {Building CategoryMapDefinition : Type}.
Variable initialMapViewport : MapViewportConfig.
Variable mapBackgroundColor : gmap string string.

(** *** What a handler does to the outside *)

(** What [apiGet] resolves to: the lookup service answers with a sequence
    of entities; [?.] also provides for [null] or [undefined]. *)
Inductive ApiData : Type :=
| Nullish
| Entities (l : list Building).

(** [data?.[0]] *)
Definition optional_first (data : ApiData) : option Building :=
  match data with
  | Nullish => None
  | Entities l => head l
  end.

(** Calls that leave the component, in the order they are made. *)
Inductive Call : Type :=
| ApiGet (url : Url)
| OnBuildingAction (building : option Building)
| PreventDefault.

Record World : Type := {
  hooks : HookState;
  calls : list Call
}.

Definition update_hooks (f : HookState -> HookState) (w : World) : World :=
  {| hooks := f (hooks w); calls := calls w |}.

Definition emit (c : Call) (w : World) : World :=
  {| hooks := hooks w; calls := calls w ++ [c] |}.

(** *** The handler monad: state, call log, and a thrown exception *)

Inductive Completion (A : Type) : Type :=
| Returned (a : A)
| Thrown.
Arguments Returned {A} a.
Arguments Thrown {A}.

Definition Handler (A : Type) : Type := World -> Completion A * World.

#[local] Instance Handler_ret : MRet Handler :=
  fun A a w => (Returned a, w).

#[local] Instance Handler_bind : MBind Handler :=
  fun A B k m w =>
    match m w with
    | (Returned a, w') => k a w'
    | (Thrown, w') => (Thrown, w')
    end.

Definition exec {A : Type} (m : Handler A) (w : World) : World := snd (m w).

(** The [useState] setters. The value set is the state of the next render;
    no handler reads a state variable after setting it. *)
Definition setDataLayers (v : LayerEnablementState) : Handler unit :=
  fun w => (Returned tt, update_hooks (set_dataLayers v) w).

Definition setPosition (v : number * number) : Handler unit :=
  fun w => (Returned tt, update_hooks (set_position v) w).

Definition setZoom (v : number) : Handler unit :=
  fun w => (Returned tt, update_hooks (set_zoom v) w).

Definition call {A : Type} (c : Call) (result : Completion A) : Handler A :=
  fun w => (result, emit c w).

(** [await p]: the value of a fulfilled promise, an exception for a
    rejected one. *)
Definition await {A : Type} (p : Promise A) : Handler A :=
  fun w =>
    match p with
    | Fulfilled a => (Returned a, w)
    | Rejected => (Thrown, w)
    end.

(** *** The three handlers *)

Definition handleLocate (lat lng zoom : number) : Handler unit :=
  setPosition (lat, lng);;
  setZoom zoom.

(** [apiGet] and [onBuildingAction] come from outside: the first is the
    lookup service, given here by what its promise settles to; the second
    is the callback prop, whose invocations are recorded. *)
Definition handleClick (apiGet : Url -> Promise ApiData)
    (e : LeafletMouseEvent) : Handler unit :=
  let lat := lat (latlng e) in
  let lng := lng (latlng e) in
  let url := BuildingsLocate lat lng in
  data ← (call (ApiGet url) (Returned (apiGet url)) ≫= await);
  let building := optional_first data in
  call (OnBuildingAction building) (Returned tt).

(** [layerSwitch] closes over the [dataLayers] of the render that made it. *)
Definition layerSwitch (dataLayers : LayerEnablementState) : Handler unit :=
  call PreventDefault (Returned tt);;
  let newDisplayState :=
    if LayerEnablementState_eqb dataLayers Enabled then Disabled else Enabled in
  setDataLayers newDisplayState.

(** *** The controller as a state machine *)

Inductive Action : Type :=
| Locate (lat lng zoom : number)
| Click (e : LeafletMouseEvent) (response : Promise ApiData)
| LayerSwitch.

(** One event: the handler of the last render runs to completion. The
    lookup of a click settles, with [response], before the next event. *)
Definition step (w : World) (a : Action) : World :=
  match a with
  | Locate lat lng zoom => exec (handleLocate lat lng zoom) w
  | Click e response => exec (handleClick (fun _ => response) e) w
  | LayerSwitch => exec (layerSwitch (dataLayers (hooks w))) w
  end.

Definition run (w : World) (actions : list Action) : World :=
  fold_left step actions w.

(** The three [useState] initial values, and no call made yet. *)
Definition initialWorld : World :=
  {| hooks := {| dataLayers := Disabled;
                 position := cfg_position initialMapViewport;
                 zoom := cfg_zoom initialMapViewport |};
     calls := [] |}.

Definition reachable (w : World) : Prop :=
  exists actions : list Action, w = run initialWorld actions.

(** *** Props and context *)

Record ColouringMapProps : Type := {
  selectedBuildingId : option number;
  mode : Mode;
  revisionId : string;
  mapColourScale : option BuildingMapTileset;
  categoryMapDefinitions : list CategoryMapDefinition
}.

(** What [useDisplayPreferences] hands to the component. *)
Record DisplayPreferences : Type := {
  darkLightTheme : MapTheme
}.

(** *** The element tree *)

(** Components that [ColouringMap] instantiates without children, with the
    data props they are given. Callback props are left out: [onClick] of
    [ClickHandler] is [handleClick], [onSubmit] of [DataLayerSwitcher] is
    [layerSwitch], [onLocate] of [SearchBox] is [handleLocate]. *)
Inductive Component : Type :=
| ClickHandler
| MapBackgroundColor (theme : MapTheme)
| MapViewport (position : number * number) (zoom : number)
| CityBaseMapLayer (theme : MapTheme)
| BuildingBaseLayer (theme : MapTheme)
| ConservationAreaBoundaryLayer
| BuildingDataLayer (tileset : option BuildingMapTileset) (revisionId : string)
| CityBoundaryLayer
| HistoricDataLayer
| BoroughBoundaryLayer
| ParcelBoundaryLayer
| FloodBoundaryLayer
| VistaBoundaryLayer
| HousingBoundaryLayer
| CreativeBoundaryLayer
| BuildingNumbersLayer (revisionId : string)
| BuildingHighlightLayer (selectedBuildingId : option number)
    (baseTileset : option BuildingMapTileset)
| ZoomControl (position : string)
| AttributionControl (prefix : string)
| Legend (mapColourScaleDefinitions : list CategoryMapDefinition)
    (mapColourScale : option BuildingMapTileset)
| ThemeSwitcher (currentTheme : MapTheme)
| DataLayerSwitcher (currentDisplay : LayerEnablementState)
| BoroughSwitcher
| ParcelSwitcher
| FloodSwitcher
| ConservationAreaSwitcher
| HistoricDataSwitcher
| VistaSwitcher
| HousingSwitcher
| CreativeSwitcher
| SearchBox.

Inductive Element : Type :=
| Leaf (c : Component)
| Prim (p : Primitive)
| Div (className : string) (children : list Element)
| Fragment (children : list Element)
| MapContainer (center : number * number) (zoom minZoom maxZoom : number)
    (doubleClickZoom zoomControl attributionControl : bool)
    (children : list Element)
| Pane (key : option MapTheme) (name : string) (zIndex : Z)
    (children : list Element).

(** [a && e] in child position. *)
Definition js_and {A : Type} `{JsValue A} (a : A) (e : Element) : Element :=
  if truthy a then e else Prim (toPrimitive a).

Definition minZoom : number := 9%float.
Definition maxZoom : number := 18%float.

Definition hasSelection (props : ColouringMapProps) : bool :=
  neq_undefined (selectedBuildingId props).

Definition isEdit (props : ColouringMapProps) : bool :=
  existsb (Mode_eqb (mode props)) [Edit; MultiEdit].

(** The value [ColouringMap] returns. *)
Definition ColouringMap (props : ColouringMapProps) (prefs : DisplayPreferences)
    (h : HookState) : Element :=
  let darkLightTheme := darkLightTheme prefs in
  let dataLayers := dataLayers h in
  Div "map-container" [
    MapContainer (cfg_position initialMapViewport) (cfg_zoom initialMapViewport)
      minZoom maxZoom false false false [
      Leaf ClickHandler;
      Leaf (MapBackgroundColor darkLightTheme);
      Leaf (MapViewport (position h) (zoom h));
      Pane (Some darkLightTheme) "cc-base-pane" 50 [
        Leaf (CityBaseMapLayer darkLightTheme);
        Leaf (BuildingBaseLayer darkLightTheme)
      ];
      Pane None "cc-overlay-pane-shown-behind-buildings" 199 [
        Leaf ConservationAreaBoundaryLayer
      ];
      js_and (mapColourScale props)
        (Leaf (BuildingDataLayer (mapColourScale props) (revisionId props)));
      Pane None "cc-overlay-pane" 300 [
        Leaf CityBoundaryLayer;
        Leaf HistoricDataLayer;
        Leaf BoroughBoundaryLayer;
        Leaf ParcelBoundaryLayer;
        Leaf FloodBoundaryLayer;
        Leaf VistaBoundaryLayer;
        Leaf HousingBoundaryLayer;
        Leaf CreativeBoundaryLayer;
        Leaf (BuildingNumbersLayer (revisionId props));
        js_and (selectedBuildingId props)
          (Leaf (BuildingHighlightLayer (selectedBuildingId props)
                   (mapColourScale props)))
      ];
      Leaf (ZoomControl "topright");
      Leaf (AttributionControl EmptyString)
    ];
    js_and (negb (Mode_eqb (mode props) Basic))
      (Fragment [
        Leaf (Legend (categoryMapDefinitions props) (mapColourScale props));
        Leaf (ThemeSwitcher darkLightTheme);
        Leaf (DataLayerSwitcher dataLayers);
        (if LayerEnablementState_eqb dataLayers Enabled
         then Fragment [
           Leaf BoroughSwitcher;
           Leaf ParcelSwitcher;
           Leaf FloodSwitcher;
           Leaf ConservationAreaSwitcher;
           Leaf HistoricDataSwitcher;
           Leaf VistaSwitcher;
           Leaf HousingSwitcher;
           Leaf CreativeSwitcher
         ]
         else Fragment []);
        Leaf SearchBox
      ])
  ].

(** The component instances of a tree, in document order. *)
Fixpoint instances (e : Element) : list Component :=
  match e with
  | Leaf c => [c]
  | Prim _ => []
  | Div _ children
  | Fragment children
  | MapContainer _ _ _ _ _ _ _ children
  | Pane _ _ _ children => flat_map instances children
  end.

(** *** Effects *)

(** Writes to the map engine made by [useEffect] bodies. *)
Inductive Effect : Type :=
| SetBackgroundColor (value : option string)
| SetView (position : number * number) (zoom : number).

(** The effects of one component instance after a commit.
    [MapBackgroundColor] passes no dependency list, so its effect runs
    after every render; the effect of [MapViewport] runs when React finds
    [[position, zoom]] changed, which is an input here. *)
Definition component_effects (viewportChanged : bool) (c : Component) : list Effect :=
  match c with
  | MapBackgroundColor theme => [SetBackgroundColor (mapBackgroundColor !! theme)]
  | MapViewport position zoom =>
      if viewportChanged then [SetView position zoom] else []
  | _ => []
  end.

Definition commit (viewportChanged : bool) (e : Element) : list Effect :=
  flat_map (component_effects viewportChanged) (instances e).

(** The values assigned to [style.backgroundColor] of the map container. *)
Definition background_colours (effects : list Effect) : list (option string) :=
  flat_map (fun eff => match eff with
                       | SetBackgroundColor v => [v]
                       | SetView _ _ => []
                       end) effects.

(** *** Observations used by the properties *)

(** The arguments of the calls to [onBuildingAction], in order. *)
Definition callback_arguments (cs : list Call) : list (option Building) :=
  flat_map (fun c => match c with
                     | OnBuildingAction b => [b]
                     | _ => []
                     end) cs.

Definition zoom_within_limits (z : number) : bool :=
  PrimFloat.leb minZoom z && PrimFloat.leb z maxZoom.

(** A [Locate] whose zoom argument lies in the limits of the map. *)
Definition locate_within_limits (a : Action) : bool :=
  match a with
  | Locate _ _ z => zoom_within_limits z
  | _ => true
  end.

Definition is_highlight_layer (c : Component) : bool :=
  match c with
  | BuildingHighlightLayer _ _ => true
  | _ => false
  end.

Definition is_building_data_layer (c : Component) : bool :=
  match c with
  | BuildingDataLayer _ _ => true
  | _ => false
  end.

Definition is_boundary_switcher (c : Component) : bool :=
  match c with
  | BoroughSwitcher | ParcelSwitcher | FloodSwitcher | ConservationAreaSwitcher
  | HistoricDataSwitcher | VistaSwitcher | HousingSwitcher | CreativeSwitcher => true
  | _ => false
  end.

Definition boundary_switchers : list Component :=
  [BoroughSwitcher; ParcelSwitcher; FloodSwitcher; ConservationAreaSwitcher;
   HistoricDataSwitcher; VistaSwitcher; HousingSwitcher; CreativeSwitcher].

(** Legend, theme switcher, layer-group switcher, boundary switchers and
    search box. *)
Definition is_overlay_chrome (c : Component) : bool :=
  match c with
  | Legend _ _ | ThemeSwitcher _ | DataLayerSwitcher _ | SearchBox => true
  | _ => is_boundary_switcher c
  end.

End Controller.

Arguments ApiData Building : clear implicits.
Arguments Call Building : clear implicits.
Arguments World Building : clear implicits.
Arguments Handler Building : clear implicits.
Arguments Action Building : clear implicits.
Arguments ColouringMapProps CategoryMapDefinition : clear implicits.
Arguments Component CategoryMapDefinition : clear implicits.
Arguments Element CategoryMapDefinition : clear implicits.

(** ** Observations on runs and renders *)

Arguments Returned {A} a.
Arguments Thrown {A}.

Section Observations.

Context {Building CategoryMapDefinition : Type}.





Definition is_layer_switch (a : Action Building) : bool :=
  match a with
  | LayerSwitch => true
  | _ => false
  end.

(** The arguments of the last [Locate] of a sequence of events. *)
Fixpoint last_locate (actions : list (Action Building))
    : option (number * number * number) :=
  match actions with
  | [] => None
  | a :: rest =>
      match last_locate rest with
      | Some v => Some v
      | None =>
          match a with
          | Locate lat lng z => Some (lat, lng, z)
          | _ => None
          end
      end
  end.

Definition other_state (s : LayerEnablementState) : LayerEnablementState :=
  match s with
  | Enabled => Disabled
  | Disabled => Enabled
  end.

Definition set_mode (m : Mode) (props : ColouringMapProps CategoryMapDefinition)
    : ColouringMapProps CategoryMapDefinition :=
  {| selectedBuildingId := selectedBuildingId props;
     mode := m;
     revisionId := revisionId props;
     mapColourScale := mapColourScale props;
     categoryMapDefinitions := categoryMapDefinitions props |}.

(** The panes of a tree in document order: key, name and z-index. *)
Fixpoint panes (e : Element CategoryMapDefinition) : list (option string * string * Z) :=
  match e with
  | Leaf _ | Prim _ => []
  | Div _ children
  | Fragment children
  | MapContainer _ _ _ _ _ _ _ children => flat_map panes children
  | Pane key name zIndex children => (key, name, zIndex) :: flat_map panes children
  end.

(** The children of the pane [name], whatever they are. *)
Fixpoint pane_children (name : string) (e : Element CategoryMapDefinition)
    : list (Element CategoryMapDefinition) :=
  match e with
  | Leaf _ | Prim _ => []
  | Div _ children
  | Fragment children
  | MapContainer _ _ _ _ _ _ _ children => flat_map (pane_children name) children
  | Pane _ name' _ children =>
      if String.eqb name name'
      then children
      else flat_map (pane_children name) children
  end.

(** *** [handleClick] on either side of its [await] *)

#[local] Existing Instance Handler_ret.
#[local] Existing Instance Handler_bind.

(** From the click to the [await]: the request is made, the handler is
    suspended on its promise. The result names the lookup. *)
Definition handleClick_request (e : LeafletMouseEvent) : Handler Building Url :=
  let lat := lat (latlng e) in
  let lng := lng (latlng e) in
  let url := BuildingsLocate lat lng in
  call (ApiGet url) (Returned url).

(** From the [await] on, once the promise has settled. [onBuildingAction]
    gives how the callback prop completes on its argument. *)
Definition handleClick_resume (onBuildingAction : option Building -> Completion unit)
    (response : Promise (ApiData Building)) : Handler Building unit :=
  data ← await response;
  let building := optional_first data in
  call (OnBuildingAction building) (onBuildingAction building).

(** [handleClick] with a callback that may throw. *)
Definition handleClick_with (onBuildingAction : option Building -> Completion unit)
    (apiGet : Url -> Promise (ApiData Building)) (e : LeafletMouseEvent)
    : Handler Building unit :=
  url ← handleClick_request e;
  handleClick_resume onBuildingAction (apiGet url).

(** *** Events with lookups in flight *)

(** The component with the lookups that were requested and have not
    settled, oldest first. *)
Record AsyncWorld : Type := {
  world : World Building;
  pending : list Url
}.

(** A click only requests; the lookup at index [i] of the pending ones
    settles as an event of its own, in any order. *)
Inductive Event : Type :=
| EvLocate (lat lng zoom : number)
| EvClick (e : LeafletMouseEvent)
| EvSettle (i : nat) (response : Promise (ApiData Building))
    (callbackResult : Completion unit)
| EvLayerSwitch.

(** One event; [None] when [EvSettle] names no pending lookup. *)
Definition async_step (aw : AsyncWorld) (ev : Event) : option AsyncWorld :=
  match ev with
  | EvLocate lat lng zoom =>
      Some {| world := exec (handleLocate lat lng zoom) (world aw);
              pending := pending aw |}
  | EvClick e =>
      let url := BuildingsLocate (lat (latlng e)) (lng (latlng e)) in
      Some {| world := exec (handleClick_request e) (world aw);
              pending := pending aw ++ [url] |}
  | EvSettle i response callbackResult =>
      match pending aw !! i with
      | Some _ =>
          Some {| world := exec (handleClick_resume (fun _ => callbackResult) response)
                             (world aw);
                  pending := delete i (pending aw) |}
      | None => None
      end
  | EvLayerSwitch =>
      Some {| world := exec (layerSwitch (dataLayers (hooks (world aw)))) (world aw);
              pending := pending aw |}
  end.

Fixpoint async_run (aw : AsyncWorld) (events : list Event) : option AsyncWorld :=
  match events with
  | [] => Some aw
  | ev :: rest =>
      match async_step aw ev with
      | Some aw' => async_run aw' rest
      | None => None
      end
  end.

(** The calls one event makes, in order. *)
Definition event_calls (ev : Event) : list (Call Building) :=
  match ev with
  | EvLocate _ _ _ => []
  | EvClick e => [ApiGet (BuildingsLocate (lat (latlng e)) (lng (latlng e)))]
  | EvSettle _ (Fulfilled data) _ => [OnBuildingAction (optional_first data)]
  | EvSettle _ Rejected _ => []
  | EvLayerSwitch => [PreventDefault]
  end.

(** What the settling of a lookup hands to [onBuildingAction]. *)
Definition settle_callbacks (ev : Event) : list (option Building) :=
  match ev with
  | EvSettle _ (Fulfilled data) _ => [optional_first data]
  | _ => []
  end.

End Observations.

Arguments AsyncWorld Building : clear implicits.
Arguments Event Building : clear implicits.

(** ** The conservation-area switcher ([conservation-switcher.tsx]) *)

Module ConservationSwitcher.

(** The DOM elements the component is made of. The [onSubmit] of the form
    is the callback prop, passed on as it is. *)
Inductive Html : Type :=
| Text (s : string)
| Form (className : string) (children : list Html)
| Button (className type : string) (children : list Html).

(** The interface [ConservationAreaSwitcherProps], without [onSubmit]. *)
Record Props : Type := {
  currentDisplay : string
}.

(** The component, a constant of the same name as the interface. *)
Definition ConservationAreaSwitcherProps (props : Props) : Html :=
  Form ("conservation-switcher " +:+ currentDisplay props) [
    Button "btn btn-outline btn-outline-dark" "submit" [
      Text "Switch conservation area overlay (";
      Text (if String.eqb (currentDisplay props) "enabled"
            then "Enabled" else "Disabled");
      Text ")"
    ]
  ].

Fixpoint textContent (h : Html) : string :=
  match h with
  | Text s => s
  | Form _ children
  | Button _ _ children =>
      fold_right (fun child acc => textContent child +:+ acc) EmptyString children
  end.

(** The [class] attribute of the root element. *)
Definition rootClassName (h : Html) : option string :=
  match h with
  | Text _ => None
  | Form className _ => Some className
  | Button className _ _ => Some className
  end.

(** The string value of a [LayerEnablementState]. *)
Definition LayerEnablementState_value (s : LayerEnablementState) : string :=
  match s with
  | Enabled => "enabled"
  | Disabled => "disabled"
  end.

End ConservationSwitcher.

(** ** Sample inputs *)

Module Sample.

(** An entity as the lookup service returns it, reduced to its id. *)
Record Entity : Type := { entity_id : Z }.

Definition sampleViewport : MapViewportConfig :=
  {| cfg_position := (39.5%float, 35.25%float); cfg_zoom := 16%float |}.

Definition sampleColours : gmap string string :=
  {[ "light" := "#F5F5F2"; "night" := "#25282A" ]}.

Definition start : World Entity := initialWorld sampleViewport.

Definition sampleClick : LeafletMouseEvent :=
  {| latlng := {| lat := 51.5%float; lng := (-0.1)%float |} |}.

Definition basicProps : ColouringMapProps unit :=
  {| selectedBuildingId := Some 42%float;
     mode := Basic;
     revisionId := "7";
     mapColourScale := Some "date_year";
     categoryMapDefinitions := [tt] |}.

Definition viewProps : ColouringMapProps unit :=
  {| selectedBuildingId := None;
     mode := View;
     revisionId := "8";
     mapColourScale := None;
     categoryMapDefinitions := [] |}.

Definition enabledHooks : HookState :=
  {| dataLayers := Enabled; position := (51.5%float, (-0.1)%float); zoom := 14%float |}.

Definition sampleActions : list (Action Entity) :=
  [Locate 51.5%float (-0.1)%float 14%float;
   LayerSwitch;
   Click sampleClick (Fulfilled (Entities []));
   Locate 39.5%float 35.25%float 9%float;
   Click sampleClick Rejected].

End Sample.

Module AsyncSample.

Import Sample.

Definition idle : AsyncWorld Entity := {| world := start; pending := [] |}.

Definition otherClick : LeafletMouseEvent :=
  {| latlng := {| lat := 39.5%float; lng := 35.25%float |} |}.

(** A click, a toggle while its lookup is in flight, then the lookup
    resolving to the entity 42. *)
Definition toggleInFlight : list (Event Entity) :=
  [EvClick sampleClick;
   EvLayerSwitch;
   EvSettle 0 (Fulfilled (Entities [{| entity_id := 42 |}])) (Returned tt)].

Definition afterToggleInFlight : AsyncWorld Entity :=
  Eval vm_compute in
    match async_run idle toggleInFlight with
    | Some aw => aw
    | None => idle
    end.

(** Two clicks; the lookup of the second resolves first. *)
Definition outOfOrder : list (Event Entity) :=
  [EvClick sampleClick;
   EvClick otherClick;
   EvSettle 1 (Fulfilled (Entities [{| entity_id := 2 |}])) (Returned tt);
   EvSettle 0 (Fulfilled (Entities [{| entity_id := 1 |}])) (Returned tt)].

Definition afterOutOfOrder : AsyncWorld Entity :=
  Eval vm_compute in
    match async_run idle outOfOrder with
    | Some aw => aw
    | None => idle
    end.

End AsyncSample.

(** * Properties *)

Section Properties.

Context {Building CategoryMapDefinition : Type}.
Variable initialMapViewport : MapViewportConfig.
Variable mapBackgroundColor : gmap string string.

#[local] Abbreviation Props := (ColouringMapProps CategoryMapDefinition).
#[local] Abbreviation render := (ColouringMap initialMapViewport).
#[local] Abbreviation effects := (commit mapBackgroundColor).

(** ** Properties of the handlers *)

Lemma exec_handleLocate (lat lng z : number) (w : World Building) :
  exec (handleLocate lat lng z) w =
    {| hooks := {| dataLayers := dataLayers (hooks w);
                   position := (lat, lng);
                   zoom := z |};
       calls := calls w |}.
Proof. reflexivity. Qed.

Lemma exec_layerSwitch (captured : LayerEnablementState) (w : World Building) :
  exec (layerSwitch captured) w =
    {| hooks := set_dataLayers
                  (if LayerEnablementState_eqb captured Enabled
                   then Disabled else Enabled) (hooks w);
       calls := calls w ++ [PreventDefault] |}.
Proof. reflexivity. Qed.

Lemma hooks_handleClick (apiGet : Url -> Promise (ApiData Building))
    (e : LeafletMouseEvent) (w : World Building) :
  hooks (exec (handleClick apiGet e) w) = hooks w.
Proof.
  unfold handleClick, exec, mbind, Handler_bind, call, await; cbn.
  destruct (apiGet _); reflexivity.
Qed.

(** C1, as the code has it: a click issues the lookup once; when the lookup
    resolves, the action callback is invoked exactly once, with the first
    entity when there is one and with [undefined] when the result is empty
    or nullish; when the lookup rejects, the callback is not invoked. *)
Theorem handleClick_calls (apiGet : Url -> Promise (ApiData Building))
    (e : LeafletMouseEvent) (w : World Building) :
  let url := BuildingsLocate (lat (latlng e)) (lng (latlng e)) in
  calls (exec (handleClick apiGet e) w) =
    calls w ++ ApiGet url ::
      match apiGet url with
      | Fulfilled (Entities (building :: _)) => [OnBuildingAction (Some building)]
      | Fulfilled (Entities []) => [OnBuildingAction None]
      | Fulfilled Nullish => [OnBuildingAction None]
      | Rejected => []
      end.
Proof.
  unfold handleClick, exec, mbind, Handler_bind, call, await; cbn.
  destruct (apiGet _) as [[|[|building rest]]|]; cbn;
    rewrite <- ?app_assoc; reflexivity.
Qed.

(** C4: after [locate(lat, lng, zoom)] from any state, the viewport state
    is exactly position [(lat, lng)] and zoom [zoom]. *)
Theorem handleLocate_sets_viewport (lat lng z : number) (w : World Building) :
  position (hooks (exec (handleLocate lat lng z) w)) = (lat, lng)
  /\ zoom (hooks (exec (handleLocate lat lng z) w)) = z.
Proof. rewrite exec_handleLocate. split; reflexivity. Qed.

(** C5: one toggle of the layer group maps each of the two states to the
    other one, and two toggles in a row give the starting state back. *)
Theorem layerSwitch_involutive (w : World Building) :
  dataLayers (hooks (step w LayerSwitch)) =
    match dataLayers (hooks w) with
    | Enabled => Disabled
    | Disabled => Enabled
    end
  /\ dataLayers (hooks (step (step w LayerSwitch) LayerSwitch)) =
       dataLayers (hooks w).
Proof.
  unfold step. rewrite !exec_layerSwitch. cbn.
  destruct (dataLayers (hooks w)); split; reflexivity.
Qed.

(** C10: [locate] leaves the layer-enablement state as it was, the toggle
    leaves position and zoom as they were, and a click leaves all three,
    whatever the lookup does. *)
Theorem handlers_frame (w : World Building) :
  (forall lat lng z : number,
      dataLayers (hooks (exec (handleLocate lat lng z) w)) = dataLayers (hooks w))
  /\ (forall captured : LayerEnablementState,
         position (hooks (exec (layerSwitch captured) w)) = position (hooks w)
         /\ zoom (hooks (exec (layerSwitch captured) w)) = zoom (hooks w))
  /\ (forall (apiGet : Url -> Promise (ApiData Building)) (e : LeafletMouseEvent),
         hooks (exec (handleClick apiGet e) w) = hooks w).
Proof.
  split; [|split].
  - intros. rewrite exec_handleLocate. reflexivity.
  - intros. rewrite exec_layerSwitch. split; reflexivity.
  - intros. apply hooks_handleClick.
Qed.

(** *** The zoom limits *)

Lemma step_zoom (w : World Building) (a : Action Building) :
  zoom (hooks (step w a)) =
    match a with
    | Locate _ _ z => z
    | _ => zoom (hooks w)
    end.
Proof.
  destruct a as [lat lng z|e response|]; cbn [step].
  - rewrite exec_handleLocate. reflexivity.
  - rewrite hooks_handleClick. reflexivity.
  - rewrite exec_layerSwitch. reflexivity.
Qed.

Lemma run_zoom_within_limits (actions : list (Action Building)) :
  forall w : World Building,
    zoom_within_limits (zoom (hooks w)) = true ->
    forallb locate_within_limits actions = true ->
    zoom_within_limits (zoom (hooks (run w actions))) = true.
Proof.
  induction actions as [|a actions IH]; intros w Hw Hall; cbn in *.
  - exact Hw.
  - apply andb_prop in Hall as [Ha Hrest].
    apply IH; [|exact Hrest].
    rewrite step_zoom. destruct a; assumption.
Qed.

(** C3, as the code has it: [locate] stores the zoom it is given, whatever
    it is, without validating or clamping it, and the toggle and the click
    never change the zoom; so, when the configured initial zoom lies in
    [9, 18] and every [locate] is called with a zoom in [9, 18], the zoom
    state lies in [9, 18] after any sequence of operations. *)
Theorem zoom_within_limits_invariant :
  (forall (w : World Building) (a : Action Building),
      zoom (hooks (step w a)) =
        match a with
        | Locate _ _ z => z
        | Click _ _ | LayerSwitch => zoom (hooks w)
        end)
  /\ (forall actions : list (Action Building),
         zoom_within_limits (cfg_zoom initialMapViewport) = true ->
         forallb locate_within_limits actions = true ->
         zoom_within_limits
           (zoom (hooks (run (initialWorld initialMapViewport) actions))) = true).
Proof.
  split.
  - intros w a. rewrite step_zoom. destruct a; reflexivity.
  - intros actions Hinit Hall. apply run_zoom_within_limits; assumption.
Qed.

(** ** Properties of the rendered tree *)

(** The component instances of a render, tier by tier. *)
Lemma instances_ColouringMap (props : Props)
    (prefs : DisplayPreferences) (h : HookState) :
  instances (render props prefs h) =
    [ClickHandler;
     MapBackgroundColor (darkLightTheme prefs);
     MapViewport (position h) (zoom h);
     CityBaseMapLayer (darkLightTheme prefs);
     BuildingBaseLayer (darkLightTheme prefs);
     ConservationAreaBoundaryLayer]
    ++ (if truthy (mapColourScale props)
        then [BuildingDataLayer (mapColourScale props) (revisionId props)]
        else [])
    ++ [CityBoundaryLayer; HistoricDataLayer; BoroughBoundaryLayer;
        ParcelBoundaryLayer; FloodBoundaryLayer; VistaBoundaryLayer;
        HousingBoundaryLayer; CreativeBoundaryLayer;
        BuildingNumbersLayer (revisionId props)]
    ++ (if truthy (selectedBuildingId props)
        then [BuildingHighlightLayer (selectedBuildingId props)
                (mapColourScale props)]
        else [])
    ++ [ZoomControl "topright"; AttributionControl EmptyString]
    ++ (if Mode_eqb (mode props) Basic
        then []
        else [Legend (categoryMapDefinitions props) (mapColourScale props);
              ThemeSwitcher (darkLightTheme prefs);
              DataLayerSwitcher (dataLayers h)]
             ++ (if LayerEnablementState_eqb (dataLayers h) Enabled
                 then boundary_switchers
                 else [])
             ++ [SearchBox]).
Proof.
  unfold ColouringMap, js_and.
  destruct (truthy (mapColourScale props)), (truthy (selectedBuildingId props)),
    (Mode_eqb (mode props) Basic), (LayerEnablementState_eqb (dataLayers h) Enabled);
    reflexivity.
Qed.

Ltac render_cases props h :=
  rewrite instances_ColouringMap;
  destruct (truthy (mapColourScale props)), (truthy (selectedBuildingId props)),
    (mode props), (dataLayers h); cbn.

Lemma string_truthy_nonempty (s : string) : string_truthy s = true <-> s <> EmptyString.
Proof. destruct s; cbn; split; congruence. Qed.

(** The highlight tier follows the truthiness of [selectedBuildingId]. *)
Lemma highlight_layers (props : Props) (prefs : DisplayPreferences) (h : HookState) :
  List.filter is_highlight_layer (instances (render props prefs h)) =
    if truthy (selectedBuildingId props)
    then [BuildingHighlightLayer (selectedBuildingId props) (mapColourScale props)]
    else [].
Proof. render_cases props h; reflexivity. Qed.

(** C2 at [selectedBuildingId = 0]: the id is defined, [hasSelection] holds,
    and the render contains no highlight layer; the number [0] itself is
    left as a child of the overlay pane. *)
Theorem highlight_layer_absent_for_id_zero (m : Mode) (rev : string)
    (scale : option string) (defs : list CategoryMapDefinition)
    (prefs : DisplayPreferences) (h : HookState) :
  let props := {| selectedBuildingId := Some 0%float; mode := m; revisionId := rev;
                  mapColourScale := scale; categoryMapDefinitions := defs |} in
  hasSelection props = true
  /\ List.filter is_highlight_layer (instances (render props prefs h)) = []
  /\ js_and (CategoryMapDefinition := CategoryMapDefinition) (selectedBuildingId props)
       (Leaf (BuildingHighlightLayer (selectedBuildingId props) (mapColourScale props)))
     = Prim (PNumber 0%float).
Proof.
  intros props. split; [reflexivity|]. split; [|reflexivity].
  rewrite highlight_layers. reflexivity.
Qed.

(** C6: in mode ['basic'] the render contains no legend, no theme switcher,
    no layer-group switcher, no boundary switcher and no search box,
    whatever the rest of the state is. *)
Theorem basic_mode_no_overlay_chrome (props : Props)
    (prefs : DisplayPreferences) (h : HookState) :
  mode props = Basic ->
  List.filter is_overlay_chrome (instances (render props prefs h)) = [].
Proof.
  intros Hmode. rewrite instances_ColouringMap, Hmode. cbn [Mode_eqb].
  rewrite !List.filter_app.
  destruct (truthy (mapColourScale props)), (truthy (selectedBuildingId props));
    reflexivity.
Qed.

(** C7: each of the eight boundary switchers is in the render exactly when
    the mode is not ['basic'] and the layer group is ['enabled']; then all
    eight are there, once each, and otherwise none is. *)
Theorem boundary_switchers_rendered_iff (props : Props)
    (prefs : DisplayPreferences) (h : HookState) :
  Forall (fun c => In c (instances (render props prefs h))
                   <-> (mode props <> Basic /\ dataLayers h = Enabled))
    boundary_switchers
  /\ List.filter is_boundary_switcher (instances (render props prefs h)) =
       if negb (Mode_eqb (mode props) Basic)
          && LayerEnablementState_eqb (dataLayers h) Enabled
       then boundary_switchers
       else [].
Proof.
  split.
  - unfold boundary_switchers.
    repeat first [apply List.Forall_nil | apply List.Forall_cons].
    all: render_cases props h; unfold boundary_switchers; cbn;
      intuition congruence.
  - render_cases props h; reflexivity.
Qed.

(** C8: the building-data layer is in the render exactly when
    [mapColourScale] is set, that is, defined and not the empty string;
    then there is one, given that colour scale and the revision id. *)
Theorem building_data_layer_iff_colour_scale (props : Props)
    (prefs : DisplayPreferences) (h : HookState) :
  (truthy (mapColourScale props) = true
   <-> exists tileset : string, mapColourScale props = Some tileset /\ tileset <> EmptyString)
  /\ (In (BuildingDataLayer (mapColourScale props) (revisionId props))
        (instances (render props prefs h))
      <-> truthy (mapColourScale props) = true)
  /\ List.filter is_building_data_layer (instances (render props prefs h)) =
       if truthy (mapColourScale props)
       then [BuildingDataLayer (mapColourScale props) (revisionId props)]
       else [].
Proof.
  split; [|split].
  - destruct (mapColourScale props) as [tileset|]; cbn.
    + rewrite string_truthy_nonempty. split.
      * intros Hne. exists tileset. split; [reflexivity | exact Hne].
      * intros (t & Ht & Hne). congruence.
    + split; [discriminate|]. intros (t & Ht & _). discriminate.
  - render_cases props h; intuition congruence.
  - render_cases props h; reflexivity.
Qed.

(** *** The background colour *)

Lemma commit_background (viewportChanged : bool) (props : Props)
    (prefs : DisplayPreferences) (h : HookState) :
  background_colours (effects viewportChanged (render props prefs h)) =
    [mapBackgroundColor !! darkLightTheme prefs].
Proof.
  unfold commit. rewrite instances_ColouringMap.
  destruct viewportChanged, (truthy (mapColourScale props)),
    (truthy (selectedBuildingId props)), (Mode_eqb (mode props) Basic),
    (LayerEnablementState_eqb (dataLayers h) Enabled); reflexivity.
Qed.

(** C9: the colour assigned to the background of the map container is the
    entry of the table [mapBackgroundColor] at the theme; two states with
    the same theme get the same colour, whatever their props, hook state
    and viewport. *)
Theorem background_colour_depends_on_theme_only
    (props1 props2 : Props) (prefs1 prefs2 : DisplayPreferences) (h1 h2 : HookState)
    (changed1 changed2 : bool) :
  darkLightTheme prefs1 = darkLightTheme prefs2 ->
  background_colours (effects changed1 (render props1 prefs1 h1)) =
    background_colours (effects changed2 (render props2 prefs2 h2))
  /\ background_colours (effects changed1 (render props1 prefs1 h1)) =
       [mapBackgroundColor !! darkLightTheme prefs1].
Proof.
  intros Htheme. rewrite !commit_background, Htheme. split; reflexivity.
Qed.

End Properties.

(** ** Scenarios *)

Module Scenario.

Import Sample.

(** [locate(51.5, -0.1, 14)] *)
Example locate_scenario :
  hooks (step start (Locate 51.5%float (-0.1)%float 14%float)) =
    {| dataLayers := Disabled;
       position := (51.5%float, (-0.1)%float);
       zoom := 14%float |}.
Proof. reflexivity. Qed.

(** A click at a point with the one matching entity [{id: 42}]. *)
Example click_one_match :
  callback_arguments
    (calls (step start
              (Click sampleClick (Fulfilled (Entities [{| entity_id := 42 |}])))))
  = [Some {| entity_id := 42 |}].
Proof. reflexivity. Qed.

(** C1, the claim as written fails: a click whose lookup resolves to zero
    entities invokes the action callback, once, with [undefined]. *)
Lemma click_no_match_invokes_callback :
  callback_arguments
    (calls (exec (handleClick (fun _ => Fulfilled (Entities [])) sampleClick) start))
  = [None]
  /\ callback_arguments
       (calls (exec (handleClick (fun _ => Fulfilled (Entities [])) sampleClick) start))
     <> [].
Proof. split; [reflexivity | discriminate]. Qed.

(** C3, the claim as written fails: [locate] with zoom 25 from the initial
    state reaches a state whose zoom is outside [9, 18]. *)
Lemma locate_zoom_outside_limits :
  reachable sampleViewport (step start (Locate 39.5%float 35.25%float 25%float))
  /\ zoom_within_limits
       (zoom (hooks (step start (Locate 39.5%float 35.25%float 25%float)))) = false.
Proof.
  split; [|reflexivity].
  exists [Locate 39.5%float 35.25%float 25%float]. reflexivity.
Qed.

(** C3, amended, on a run of five operations from the sample viewport, and
    on a [locate] with zoom 25. *)
Lemma zoom_within_limits_invariant_witness :
  zoom_within_limits (cfg_zoom sampleViewport) = true
  /\ forallb locate_within_limits sampleActions = true
  /\ zoom_within_limits (zoom (hooks (run start sampleActions))) = true
  /\ zoom (hooks (step start (Locate 39.5%float 35.25%float 25%float))) = 25%float.
Proof.
  split; [reflexivity|]. split; [reflexivity|]. split.
  - apply (proj2 (zoom_within_limits_invariant sampleViewport) sampleActions);
      reflexivity.
  - apply (proj1 (zoom_within_limits_invariant sampleViewport) start
             (Locate 39.5%float 35.25%float 25%float)).
Defined.

(** C6 on a render in mode ['basic'] with the layer group enabled. *)
Lemma basic_mode_no_overlay_chrome_witness :
  mode basicProps = Basic
  /\ List.filter is_overlay_chrome
       (instances (ColouringMap sampleViewport basicProps
                     {| darkLightTheme := "night" |} enabledHooks)) = [].
Proof.
  split; [reflexivity|].
  apply (basic_mode_no_overlay_chrome sampleViewport basicProps); reflexivity.
Defined.

(** C9 on two renders that share the theme ['night'] and nothing else. *)
Lemma background_colour_depends_on_theme_only_witness :
  darkLightTheme {| darkLightTheme := "night" |} = "night"
  /\ background_colours
       (commit sampleColours true
          (ColouringMap sampleViewport basicProps
             {| darkLightTheme := "night" |} enabledHooks))
     = background_colours
         (commit sampleColours false
            (ColouringMap sampleViewport viewProps
               {| darkLightTheme := "night" |} (hooks start))).
Proof.
  split; [reflexivity|].
  apply (background_colour_depends_on_theme_only sampleViewport sampleColours
           basicProps viewProps
           {| darkLightTheme := "night" |} {| darkLightTheme := "night" |}
           enabledHooks (hooks start) true false).
  reflexivity.
Defined.

End Scenario.

(** * Further properties *)

Section Runs.

Context {Building : Type}.
Variable initialMapViewport : MapViewportConfig.



Lemma hooks_step (w : World Building) (a : Action Building) :
  hooks (step w a) =
    match a with
    | Locate lat lng z =>
        {| dataLayers := dataLayers (hooks w); position := (lat, lng); zoom := z |}
    | Click _ _ => hooks w
    | LayerSwitch => set_dataLayers (other_state (dataLayers (hooks w))) (hooks w)
    end.
Proof.
  destruct a as [lat lng z|e response|]; cbn [step].
  - rewrite exec_handleLocate. reflexivity.
  - apply hooks_handleClick.
  - rewrite exec_layerSwitch. cbn. destruct (dataLayers (hooks w)); reflexivity.
Qed.


Lemma callback_arguments_app (cs1 cs2 : list (Call Building)) :
  callback_arguments (cs1 ++ cs2) =
    callback_arguments cs1 ++ callback_arguments cs2.
Proof. apply flat_map_app. Qed.





(** X4: after any sequence of events the viewport state is the one given by
    the last locate of the sequence; without a locate it is the viewport
    the sequence started from. *)
Theorem viewport_of_run (actions : list (Action Building)) (w : World Building) :
  (position (hooks (run w actions)), zoom (hooks (run w actions))) =
    match last_locate actions with
    | Some (lat, lng, z) => ((lat, lng), z)
    | None => (position (hooks w), zoom (hooks w))
    end.
Proof.
  revert w. induction actions as [|a actions IH]; intros w; [reflexivity|].
  cbn [run fold_left last_locate]. unfold run in IH. rewrite IH.
  destruct (last_locate actions) as [[[lat lng] z]|]; [reflexivity|].
  rewrite hooks_step. destruct a; reflexivity.
Qed.

Lemma other_state_involutive (s : LayerEnablementState) :
  other_state (other_state s) = s.
Proof. destruct s; reflexivity. Qed.

(** X5: after any sequence of events the layer group is in the state it
    started from when the sequence holds an even number of toggles, and in
    the other state when it holds an odd number. *)
Theorem dataLayers_of_run (actions : list (Action Building)) (w : World Building) :
  dataLayers (hooks (run w actions)) =
    if Nat.even (length (List.filter is_layer_switch actions))
    then dataLayers (hooks w)
    else other_state (dataLayers (hooks w)).
Proof.
  revert w. induction actions as [|a actions IH]; intros w; [reflexivity|].
  cbn [run fold_left]. unfold run in IH. rewrite IH, hooks_step.
  destruct a as [lat lng z|e response|]; cbn [List.filter is_layer_switch];
    try reflexivity.
  cbn [length]. rewrite Nat.even_succ, <- Nat.negb_even.
  destruct (Nat.even _); cbn; [reflexivity|].
  apply other_state_involutive.
Qed.

End Runs.

Section Renders.

Context {Building CategoryMapDefinition : Type}.
Variable initialMapViewport : MapViewportConfig.
Variable mapBackgroundColor : gmap string string.

#[local] Abbreviation Props := (ColouringMapProps CategoryMapDefinition).
#[local] Abbreviation render := (ColouringMap initialMapViewport).
#[local] Abbreviation effects := (commit mapBackgroundColor).

(** X7: in every mode other than ['basic'] the overlay chrome is, in this
    order, the legend with the definitions and the colour scale, the theme
    switcher with the theme, the layer-group switcher with the current
    state, the eight boundary switchers when that state is ['enabled'], and
    the search box. *)
Theorem overlay_chrome_outside_basic_mode (props : Props)
    (prefs : DisplayPreferences) (h : HookState) :
  mode props <> Basic ->
  List.filter is_overlay_chrome (instances (render props prefs h)) =
    [Legend (categoryMapDefinitions props) (mapColourScale props);
     ThemeSwitcher (darkLightTheme prefs);
     DataLayerSwitcher (dataLayers h)]
    ++ (if LayerEnablementState_eqb (dataLayers h) Enabled
        then boundary_switchers else [])
    ++ [SearchBox].
Proof.
  intros Hmode. rewrite instances_ColouringMap.
  destruct (mode props) eqn:Em; [congruence| | |];
    destruct (truthy (mapColourScale props)), (truthy (selectedBuildingId props)),
      (dataLayers h); reflexivity.
Qed.

(** X8: the layers of the map are drawn in one order in every state: the
    base map and building base layers, the conservation areas, the building
    data layer when the colour scale is truthy, the eight boundary and
    historic layers, the building numbers and, last, the highlight layer
    when the selected id is truthy; the controls follow. *)
Theorem map_layer_order (props : Props) (prefs : DisplayPreferences) (h : HookState) :
  List.filter (fun c => negb (is_overlay_chrome c)) (instances (render props prefs h)) =
    [ClickHandler;
     MapBackgroundColor (darkLightTheme prefs);
     MapViewport (position h) (zoom h);
     CityBaseMapLayer (darkLightTheme prefs);
     BuildingBaseLayer (darkLightTheme prefs);
     ConservationAreaBoundaryLayer]
    ++ (if truthy (mapColourScale props)
        then [BuildingDataLayer (mapColourScale props) (revisionId props)]
        else [])
    ++ [CityBoundaryLayer; HistoricDataLayer; BoroughBoundaryLayer;
        ParcelBoundaryLayer; FloodBoundaryLayer; VistaBoundaryLayer;
        HousingBoundaryLayer; CreativeBoundaryLayer;
        BuildingNumbersLayer (revisionId props)]
    ++ (if truthy (selectedBuildingId props)
        then [BuildingHighlightLayer (selectedBuildingId props) (mapColourScale props)]
        else [])
    ++ [ZoomControl "topright"; AttributionControl EmptyString].
Proof.
  rewrite instances_ColouringMap.
  destruct (truthy (mapColourScale props)), (truthy (selectedBuildingId props)),
    (mode props), (dataLayers h); reflexivity.
Qed.

(** X9: the mode and the state of the layer group change nothing on the
    map itself: in any mode and with the layer group in any state, the
    render without its overlay chrome is the whole render of mode ['basic']. *)
Theorem map_content_independent_of_mode (props : Props) (prefs : DisplayPreferences)
    (h : HookState) (m : Mode) (s : LayerEnablementState) :
  List.filter (fun c => negb (is_overlay_chrome c))
    (instances (render (set_mode m props) prefs (set_dataLayers s h))) =
    instances (render (set_mode Basic props) prefs h).
Proof.
  rewrite !instances_ColouringMap. cbn [set_mode mode mapColourScale
    selectedBuildingId revisionId categoryMapDefinitions set_dataLayers
    dataLayers position zoom Mode_eqb].
  destruct (truthy (mapColourScale props)), (truthy (selectedBuildingId props)),
    m, s; reflexivity.
Qed.

(** X10: the highlight layer is rendered, once and with the selected id and
    the colour scale, exactly when the id is a number other than [0], [-0]
    and [NaN]; for those three and for [undefined] there is none. The mode
    plays no part. *)
Theorem highlight_layer_iff_truthy_id (props : Props) (prefs : DisplayPreferences)
    (h : HookState) :
  List.filter is_highlight_layer (instances (render props prefs h)) =
    match selectedBuildingId props with
    | Some id =>
        if PrimFloat.eqb id 0%float || PrimFloat.is_nan id
        then []
        else [BuildingHighlightLayer (Some id) (mapColourScale props)]
    | None => []
    end.
Proof.
  rewrite highlight_layers.
  destruct (selectedBuildingId props) as [id|]; [|reflexivity].
  cbn. unfold number_truthy.
  destruct (PrimFloat.eqb id 0 || PrimFloat.is_nan id); reflexivity.
Qed.

(** X11: every render has the same three panes, in document order and in
    increasing z-index: the base pane (50), keyed by the theme, then the
    pane shown behind the buildings (199) and the overlay pane (300),
    both without a key. *)
Theorem panes_of_render (props : Props) (prefs : DisplayPreferences) (h : HookState) :
  panes (render props prefs h) =
    [(Some (darkLightTheme prefs), "cc-base-pane", 50%Z);
     (None, "cc-overlay-pane-shown-behind-buildings", 199%Z);
     (None, "cc-overlay-pane", 300%Z)].
Proof.
  unfold ColouringMap, js_and.
  destruct (truthy (mapColourScale props)), (truthy (selectedBuildingId props)),
    (Mode_eqb (mode props) Basic), (LayerEnablementState_eqb (dataLayers h) Enabled);
    reflexivity.
Qed.

(** X13: the render that follows [locate(lat, lng, zoom)] assigns the
    background colour and then calls [setView] once, with exactly that
    position and that zoom, not clamped to the zoom limits; a render in
    which position and zoom did not change calls no [setView]. *)
Theorem effects_after_locate (props : Props) (prefs : DisplayPreferences)
    (w : World Building) (lat lng z : number) (h : HookState) :
  effects true (render props prefs (hooks (step w (Locate lat lng z)))) =
    [SetBackgroundColor (mapBackgroundColor !! darkLightTheme prefs);
     SetView (lat, lng) z]
  /\ effects false (render props prefs h) =
       [SetBackgroundColor (mapBackgroundColor !! darkLightTheme prefs)].
Proof.
  unfold commit. rewrite !instances_ColouringMap. cbn [step].
  rewrite exec_handleLocate. cbn [hooks position zoom dataLayers].
  split.
  - destruct (truthy (mapColourScale props)), (truthy (selectedBuildingId props)),
      (Mode_eqb (mode props) Basic),
      (LayerEnablementState_eqb (dataLayers (hooks w)) Enabled); reflexivity.
  - destruct (truthy (mapColourScale props)), (truthy (selectedBuildingId props)),
      (Mode_eqb (mode props) Basic),
      (LayerEnablementState_eqb (dataLayers h) Enabled); reflexivity.
Qed.

(** X14: the render that follows a toggle shows the boundary switchers
    exactly when the mode is not ['basic'] and the layer group was
    ['disabled'] before the toggle. *)
Theorem boundary_switchers_after_toggle (props : Props) (prefs : DisplayPreferences)
    (w : World Building) :
  List.filter is_boundary_switcher
    (instances (render props prefs (hooks (step w LayerSwitch)))) =
    if negb (Mode_eqb (mode props) Basic)
       && LayerEnablementState_eqb (dataLayers (hooks w)) Disabled
    then boundary_switchers
    else [].
Proof.
  rewrite instances_ColouringMap. cbn [step]. rewrite exec_layerSwitch.
  cbn [hooks set_dataLayers dataLayers position zoom].
  destruct (truthy (mapColourScale props)), (truthy (selectedBuildingId props)),
    (mode props), (dataLayers (hooks w)); reflexivity.
Qed.

End Renders.

Section Switcher.

Import ConservationSwitcher.

(** X15: the button of the conservation switcher reads
    "Switch conservation area overlay (Enabled)" exactly when
    [currentDisplay] is the string ['enabled'], and
    "Switch conservation area overlay (Disabled)" for every other string. *)
Theorem switcher_label (props : Props) :
  (textContent (ConservationAreaSwitcherProps props)
     = "Switch conservation area overlay (Enabled)"
   <-> currentDisplay props = "enabled")
  /\ (textContent (ConservationAreaSwitcherProps props)
        = "Switch conservation area overlay (Disabled)"
      <-> currentDisplay props <> "enabled").
Proof.
  cbn. destruct (String.eqb_spec (currentDisplay props) "enabled") as [->|Hne];
    cbn; split; split; intros; congruence || discriminate || reflexivity.
Qed.

(** X16: the class of the form is ["conservation-switcher "] followed by
    [currentDisplay], so two switchers have the same class exactly when
    they are given the same [currentDisplay]. *)
Theorem switcher_className (props1 props2 : Props) :
  rootClassName (ConservationAreaSwitcherProps props1)
    = Some ("conservation-switcher " +:+ currentDisplay props1)
  /\ (rootClassName (ConservationAreaSwitcherProps props1)
        = rootClassName (ConservationAreaSwitcherProps props2)
      <-> currentDisplay props1 = currentDisplay props2).
Proof.
  split; [reflexivity|]. cbn. split.
  - intros H. injection H as H. exact H.
  - intros ->. reflexivity.
Qed.

End Switcher.

Module RunScenario.

Import Sample.


(** X7 on a render in mode ['view'] with the layer group enabled. *)
Lemma overlay_chrome_outside_basic_mode_witness :
  mode viewProps <> Basic
  /\ List.filter is_overlay_chrome
       (instances (ColouringMap sampleViewport viewProps
                     {| darkLightTheme := "light" |} enabledHooks)) =
       [Legend [] None; ThemeSwitcher "light"; DataLayerSwitcher Enabled]
       ++ boundary_switchers ++ [SearchBox].
Proof.
  split; [discriminate|].
  apply (overlay_chrome_outside_basic_mode sampleViewport viewProps
           {| darkLightTheme := "light" |} enabledHooks).
  discriminate.
Defined.

End RunScenario.

Section Async.

Context {Building CategoryMapDefinition : Type}.
Variable initialMapViewport : MapViewportConfig.

#[local] Abbreviation Props := (ColouringMapProps CategoryMapDefinition).
#[local] Abbreviation render := (ColouringMap initialMapViewport).

Lemma handleClick_with_returning (apiGet : Url -> Promise (ApiData Building))
    (e : LeafletMouseEvent) (w : World Building) :
  handleClick_with (fun _ => Returned tt) apiGet e w = handleClick apiGet e w.
Proof.
  unfold handleClick_with, handleClick_request, handleClick_resume, handleClick,
    mbind, Handler_bind, call, await; cbn.
  destruct (apiGet _); reflexivity.
Qed.

Lemma calls_async_step (aw aw' : AsyncWorld Building) (ev : Event Building) :
  async_step aw ev = Some aw' ->
  calls (world aw') = calls (world aw) ++ event_calls ev.
Proof.
  destruct ev as [lat lng z|e|i response result|]; cbn.
  - intros [= <-]. cbn. symmetry. apply app_nil_r.
  - intros [= <-]. reflexivity.
  - destruct (pending aw !! i); [|discriminate].
    intros [= <-]. destruct response; cbn; [reflexivity|].
    symmetry. apply app_nil_r.
  - intros [= <-]. reflexivity.
Qed.

Lemma calls_async_run (events : list (Event Building)) :
  forall aw aw' : AsyncWorld Building,
    async_run aw events = Some aw' ->
    calls (world aw') = calls (world aw) ++ flat_map event_calls events.
Proof.
  induction events as [|ev events IH]; intros aw aw'; cbn.
  - intros [= <-]. symmetry. apply app_nil_r.
  - destruct (async_step aw ev) as [aw1|] eqn:Hstep; [|discriminate].
    intros Hrun. rewrite (IH _ _ Hrun), (calls_async_step _ _ _ Hstep).
    symmetry. apply app_assoc.
Qed.

Lemma callback_arguments_events (events : list (Event Building)) :
  callback_arguments (flat_map event_calls events) =
    flat_map settle_callbacks events.
Proof.
  induction events as [|ev events IH]; [reflexivity|].
  cbn [flat_map]. rewrite callback_arguments_app, IH. f_equal.
  destruct ev as [lat lng z|e|i [data|] result|]; reflexivity.
Qed.

(** X1: with lookups in flight, the call log of a sequence of events is
    the log before it followed, event by event, by nothing for a locate,
    by the lookup request for a click, by the callback for a lookup that
    resolves, by nothing for a lookup that rejects, and by
    [preventDefault] for a toggle; what happens between a click and the
    settling of its lookup is logged between the request and the
    callback. *)
Theorem calls_of_events (events : list (Event Building))
    (aw aw' : AsyncWorld Building) :
  async_run aw events = Some aw' ->
  calls (world aw') = calls (world aw) ++ flat_map event_calls events.
Proof. apply calls_async_run. Qed.

(** X2: [onBuildingAction] is invoked once for each lookup that resolves,
    at the moment and so in the order in which the lookups resolve, which
    need not be the order of the clicks; it gets the first entity of that
    lookup or [undefined]. Locates, toggles, clicks as such and lookups
    that reject add no invocation. *)
Theorem callbacks_of_events (events : list (Event Building))
    (aw aw' : AsyncWorld Building) :
  async_run aw events = Some aw' ->
  callback_arguments (calls (world aw')) =
    callback_arguments (calls (world aw)) ++ flat_map settle_callbacks events.
Proof.
  intros Hrun.
  rewrite (calls_async_run _ _ _ Hrun), callback_arguments_app,
    callback_arguments_events.
  reflexivity.
Qed.

(** X6: [handleClick] ends with an exception exactly when the lookup
    rejects, or the lookup resolves and the callback throws on the first
    entity (or [undefined]) it is handed; neither exception is caught.
    With a callback that returns, this is [handleClick] as given above. *)
Theorem handleClick_exception (onBuildingAction : option Building -> Completion unit)
    (apiGet : Url -> Promise (ApiData Building)) (e : LeafletMouseEvent)
    (w : World Building) :
  (fst (handleClick_with onBuildingAction apiGet e w) = Thrown
   <-> (apiGet (BuildingsLocate (lat (latlng e)) (lng (latlng e))) = Rejected
        \/ exists data : ApiData Building,
             apiGet (BuildingsLocate (lat (latlng e)) (lng (latlng e)))
               = Fulfilled data
             /\ onBuildingAction (optional_first data) = Thrown))
  /\ handleClick_with (fun _ => Returned tt) apiGet e w = handleClick apiGet e w.
Proof.
  split; [|apply handleClick_with_returning].
  unfold handleClick_with, handleClick_request, handleClick_resume,
    mbind, Handler_bind, call, await; cbn.
  destruct (apiGet _) as [data|]; cbn.
  - split.
    + intros Hthrown. right. exists data. split; [reflexivity | exact Hthrown].
    + intros [Hrej | (data' & [= <-] & Hthrown)]; [discriminate | exact Hthrown].
  - split; [intros _; left; reflexivity | reflexivity].
Qed.

(** X12: the overlay pane has ten children in every render: the eight
    boundary and historic layers, the building numbers, and last the
    highlight layer when the selected id is truthy, or else the falsy id
    itself ([undefined], or the number [0], [-0] or [NaN]); the building
    data layer is not among them. *)
Theorem overlay_pane_children (props : Props) (prefs : DisplayPreferences)
    (h : HookState) :
  pane_children "cc-overlay-pane" (render props prefs h) =
    map Leaf
      [CityBoundaryLayer; HistoricDataLayer; BoroughBoundaryLayer;
       ParcelBoundaryLayer; FloodBoundaryLayer; VistaBoundaryLayer;
       HousingBoundaryLayer; CreativeBoundaryLayer;
       BuildingNumbersLayer (revisionId props)]
    ++ [if truthy (selectedBuildingId props)
        then Leaf (BuildingHighlightLayer (selectedBuildingId props)
                     (mapColourScale props))
        else Prim (toPrimitive (selectedBuildingId props))].
Proof.
  unfold ColouringMap, js_and.
  destruct (truthy (mapColourScale props)), (truthy (selectedBuildingId props)),
    (Mode_eqb (mode props) Basic), (LayerEnablementState_eqb (dataLayers h) Enabled);
    reflexivity.
Qed.

(** X17: a click whose lookup settles before any other event, with a
    callback that returns, leaves the component as [handleClick] run in
    one piece does, and the lookups in flight as they were. *)
Theorem click_then_settle (aw : AsyncWorld Building) (e : LeafletMouseEvent)
    (response : Promise (ApiData Building)) :
  async_run aw [EvClick e; EvSettle (length (pending aw)) response (Returned tt)] =
    Some {| world := step (world aw) (Click e response); pending := pending aw |}.
Proof.
  cbn [async_run async_step world pending].
  rewrite list_lookup_middle by reflexivity.
  rewrite delete_middle, app_nil_r.
  reflexivity.
Qed.

End Async.

Module AsyncScenario.

Import Sample AsyncSample.

(** X1 on a toggle made while a lookup is in flight: the toggle is logged
    before the callback. *)
Lemma calls_of_events_witness :
  async_run idle toggleInFlight = Some afterToggleInFlight
  /\ calls (world afterToggleInFlight) =
       [ApiGet (BuildingsLocate 51.5%float (-0.1)%float);
        PreventDefault;
        OnBuildingAction (Some {| entity_id := 42 |})].
Proof.
  split; [reflexivity|].
  apply (calls_of_events toggleInFlight idle afterToggleInFlight).
  reflexivity.
Defined.

(** X2 on two clicks whose lookups resolve in the opposite order: the
    callback gets the entity of the second click first. *)
Lemma callbacks_of_events_witness :
  async_run idle outOfOrder = Some afterOutOfOrder
  /\ callback_arguments (calls (world afterOutOfOrder)) =
       [Some {| entity_id := 2 |}; Some {| entity_id := 1 |}].
Proof.
  split; [reflexivity|].
  apply (callbacks_of_events outOfOrder idle afterOutOfOrder).
  reflexivity.
Defined.

End AsyncScenario.
